(** * CalendarFetcher: the fetch / filter / publish cycle of
      modules/default/calendar/calendarfetcher.js

    The fetcher is a closure over three mutable variables ([reloadTimer],
    [events], [failedRetrievals]) and six constructor parameters.  It is
    embedded as a state record threaded through a small state-and-exception
    monad: a JavaScript [throw] keeps the assignments made before it, so the
    state survives an abrupt completion.

    Instants are milliseconds since the epoch, as [Z]; a JavaScript number
    is a [Z] or [NaN].  The vendored iCal library and moment.js are not part
    of the file under study; what the fetcher uses of them is written out
    below and marked where it is so. *)

From Stdlib Require Import ZArith List String Ascii Bool Lia.
From Stdlib Require Import Sorted Permutation DecimalString DecimalZ.
Import ListNotations.
Local Open Scope Z_scope.

(** ** The JavaScript fragment the fetcher relies on *)

Module Js.

Inductive exn := TypeError | ParserError.

Inductive completion (A : Type) :=
| Normal (a : A)
| Throw (e : exn).
Arguments Normal {A} a.
Arguments Throw {A} e.

(** A computation over a store [S]: the store is returned in both cases. *)
Definition M (S A : Type) := S -> S * completion A.

Definition ret {S A} (a : A) : M S A := fun s => (s, Normal a).

Definition bind {S A B} (m : M S A) (k : A -> M S B) : M S B :=
  fun s =>
    match m s with
    | (s', Normal a) => k a s'
    | (s', Throw e) => (s', Throw e)
    end.

Definition throw {S A} (e : exn) : M S A := fun s => (s, Throw e).
Definition get {S} : M S S := fun s => (s, Normal s).
Definition modify {S} (f : S -> S) : M S unit := fun s => (f s, Normal tt).
Definition lift {S A} (c : completion A) : M S A := fun s => (s, c).

(** A number: [None] is [NaN]. *)
Definition number := option Z.

(** [a - b] on numbers *)
Definition minus (a b : number) : number :=
  match a, b with
  | Some x, Some y => Some (x - y)
  | _, _ => None
  end.

(** [TimeClip]: a [Date] holds a time value of at most 8.64e15 ms in
    magnitude, or it is invalid. *)
Definition timeClip (t : Z) : option Z :=
  if Z.abs t <=? 8640000000000000 then Some t else None.

(** The values an event's [start] and [end] properties are read as. *)
Inductive value :=
| Undefined
| Number (n : Z)
| Text (s : string)
| Date (t : Z).

(** [v.length === 8]; reading a property of [undefined] throws. *)
Definition length_is_8 (v : value) : completion bool :=
  match v with
  | Undefined => Throw TypeError
  | Text s => Normal (Nat.eqb (String.length s) 8)
  | Number _ | Date _ => Normal false
  end.

Definition truthy (v : value) : bool :=
  match v with
  | Undefined => false
  | Number n => negb (n =? 0)
  | Text s => negb (Nat.eqb (String.length s) 0)
  | Date _ => true
  end.

(** [v || 0] *)
Definition or_zero (v : value) : value := if truthy v then v else Number 0.

(** [Array.prototype.slice(0, end)]: a negative [end] counts from the
    back of the array. *)
Definition slice0 {A} (end_ : Z) (l : list A) : list A :=
  let len := Z.of_nat (List.length l) in
  let final := if end_ <? 0 then Z.max (len + end_) 0 else Z.min end_ len in
  firstn (Z.to_nat final) l.

(** What [sort] makes of the number its comparator returns: [NaN] is
    read as [+0]. *)
Definition notGreater (v : number) : bool :=
  match v with
  | Some n => n <=? 0
  | None => true
  end.

(** [Array.prototype.sort(comparefn)], stable as ECMAScript requires since
    its 2019 edition: an element goes in front of the first element it does
    not compare greater than. *)
Fixpoint insert {A} (cmp : A -> A -> number) (x : A) (l : list A) : list A :=
  match l with
  | [] => [x]
  | y :: l' => if notGreater (cmp x y) then x :: l else y :: insert cmp x l'
  end.

Definition sort {A} (cmp : A -> A -> number) (l : list A) : list A :=
  fold_right (insert cmp) [] l.

(** [Array.prototype.push] *)
Definition push {A} (l : list A) (x : A) : list A := l ++ [x].

End Js.

Import Js.

Declare Scope js_scope.
Delimit Scope js_scope with js.
Notation "x <- m ;; k" := (bind m (fun x => k))
  (at level 61, m at next level, right associativity) : js_scope.
Notation "m ;; k" := (bind m (fun _ => k))
  (at level 61, right associativity) : js_scope.

(** ** moment.js and [Date], in a local time zone *)

Module Moment.

Definition msPerSecond : Z := 1000.
Definition msPerMinute : Z := 60 * 1000.
Definition msPerHour : Z := 60 * 60 * 1000.
Definition msPerDay : Z := 24 * 60 * 60 * 1000.

(** The zone the process runs in.  [offsetAt t] is local time minus UTC at
    the instant [t].  [resolve l] is the instant the wall-clock time [l]
    (milliseconds of local time since the epoch) stands for, the way
    [Date]'s local-time setters settle it where a daylight-saving change
    makes it ambiguous or skips it. *)
Record Zone := {
  offsetAt : Z -> Z;
  resolve : Z -> Z
}.

(** A zone that keeps one offset all year. *)
Definition fixed (offset : Z) : Zone :=
  {| offsetAt := fun _ => offset; resolve := fun l => l - offset |}.

Section Local.
Variable zone : Zone.

(** The wall-clock time at the instant [t]. *)
Definition wallClock (t : Z) : Z := t + offsetAt zone t.

Definition timeOfDay (t : Z) : Z := wallClock t mod msPerDay.

(** [.startOf("day")]: local midnight of the local date of [t]. *)
Definition startOfDay (t : Z) : Z := resolve zone (wallClock t - timeOfDay t).

(** [Date.prototype.getHours] and [getMinutes] *)
Definition getHours (t : Z) : Z := timeOfDay t / msPerHour.
Definition getMinutes (t : Z) : Z := (wallClock t mod msPerHour) / msPerMinute.

(** [.add(n, "days")]: the local date moves by [n] days and the time of
    day stays, whatever the offset does in between. *)
Definition addDays (n : Z) (t : Z) : Z := resolve zone (wallClock t + n * msPerDay).

(** What the properties below ask of a zone: wall-clock times a day or
    more apart stand for instants in the same order, and an instant that
    [resolve] yields is the one its own wall-clock time stands for. *)
Definition regular : Prop :=
  (forall l l', l + msPerDay <= l' -> resolve zone l <= resolve zone l') /\
  (forall l, resolve zone (wallClock (resolve zone l)) = resolve zone l).
End Local.

(** [.subtract(n, "seconds")] *)
Definition subtractSeconds (n : Z) (t : Z) : Z := t - n * msPerSecond.

Definition isBefore (a b : Z) : bool := a <? b.
Definition isAfter (a b : Z) : bool := b <? a.

(** [.format("x")]: the Unix millisecond timestamp in decimal. *)
Definition format_x (t : Z) : string := NilZero.string_of_int (Z.to_int t).

(** The instant a ["x"]-formatted string denotes. *)
Definition valueOf_x (s : string) : Z :=
  match NilZero.int_of_string s with
  | Some d => Z.of_int d
  | None => 0
  end.

End Moment.

(** ** Data *)

(** Modelled from the spec: the event type of the vendored iCal library
    ([vendor/ical.js], which is not part of the file under study).  The
    spec gives a parsed component the fields summary, start instant, end
    instant, full-day flag, classification, location, geo-coordinate and
    description.  [startDate] and [endDate] are time objects: the fetcher
    reads their instant through [toJSDate()], and subtracts the objects
    themselves in its comparator.  [start] and [end_] are the two
    properties [isFullDayEvent] reads. *)
Module ICAL.
(** A time object, with the instant [toJSDate()] yields. *)
Record Time := { toJSDate : Z }.

(** [ToNumber] of a time object: it has no [valueOf] of its own and its
    string form is a date, not a numeral. *)
Definition toNumber (t : Time) : Js.number := None.

Record Event := {
  summary : option string;
  startDate : Time;
  endDate : Time;
  fullDayEvent : option bool;
  class : option string;
  location : option string;
  geo : option string;
  description : option string;
  start : Js.value;
  end_ : Js.value
}.
End ICAL.

(** The record pushed onto [events] (lines 99-108). *)
Module Out.
Record CalendarEvent := {
  title : option string;
  startDate : string;
  endDate : string;
  fullDayEvent : option bool;
  class : option string;
  location : option string;
  geo : option string;
  description : option string
}.
End Out.

Record Auth := { method : string; user : string; pass : string }.

(** The constructor parameters. *)
Record Config := {
  url : string;
  reloadInterval : Z;
  excludedEvents : list string;
  maximumEntries : Z;
  maximumNumberOfDays : Z;
  auth : option Auth
}.

(** The closure's variables.  [received] logs the calls made to
    [eventsReceivedCallback], each with the list [self.events()] shows it. *)
Record Fetcher := {
  reloadTimer : option Z;
  events : list Out.CalendarEvent;
  failedRetrievals : Z;
  received : list (list Out.CalendarEvent)
}.

Definition set_reloadTimer (t : option Z) (f : Fetcher) : Fetcher :=
  {| reloadTimer := t; events := events f;
     failedRetrievals := failedRetrievals f; received := received f |}.

Definition set_events (l : list Out.CalendarEvent) (f : Fetcher) : Fetcher :=
  {| reloadTimer := reloadTimer f; events := l;
     failedRetrievals := failedRetrievals f; received := received f |}.

Definition set_failedRetrievals (n : Z) (f : Fetcher) : Fetcher :=
  {| reloadTimer := reloadTimer f; events := events f;
     failedRetrievals := n; received := received f |}.

Definition log_received (f : Fetcher) : Fetcher :=
  {| reloadTimer := reloadTimer f; events := events f;
     failedRetrievals := failedRetrievals f;
     received := received f ++ [events f] |}.

(** [var events = []; var failedRetrievals = 0; var reloadTimer = null] *)
Definition initial : Fetcher :=
  {| reloadTimer := None; events := []; failedRetrievals := 0; received := [] |}.

(** What [request.get] hands to [retrieveCallback], with the reading of the
    clock at that moment: [response] is [None] when there is no response
    object, else its [statusCode]; [body] is [None] for [null]. *)
Record Reply := {
  response : option Z;
  body : option string;
  clock : Z
}.

(** ** The fetcher *)

Section CalendarFetcher.

(** [url, reloadInterval, excludedEvents, maximumEntries,
    maximumNumberOfDays, auth] *)
Variable cfg : Config.

(** The zone moment.js and [Date] compute local time in. *)
Variable zone : Moment.Zone.

(** The vendored parser, as one function from the feed text to the
    [vevent] subcomponents: [ical.parse], [new ICAL.Component] and
    [getAllSubcomponents('vevent')].  [None] is a thrown parse error. *)
Variable icalParse : string -> option (list ICAL.Event).

(** [ToNumber] and [Date.parse] on strings; [None] is [NaN]. *)
Variable stringToNumber : string -> option Z.
Variable dateParse : string -> option Z.

Local Open Scope js_scope.

(** [scheduleTimer(interval)].  [reloadTimer] is the pending timeout, with
    its delay. *)
Definition scheduleTimer (interval : Z) : M Fetcher unit :=
  (* clearTimeout(reloadTimer) *)
  modify (set_reloadTimer None) ;;
  (* reloadTimer = setTimeout(..., interval) *)
  modify (set_reloadTimer (Some interval)).

(** [fetchCalendar()] up to the point where the request is issued. *)
Definition fetchCalendar : M Fetcher unit :=
  (* clearTimeout(reloadTimer) *)
  modify (set_reloadTimer None) ;;
  (* reloadTimer = null *)
  modify (set_reloadTimer None).

(** [parseCalendar(icalData)]: [None] is the [undefined] a bare [return]
    yields. *)
Definition parseCalendar (icalData : option string)
  : completion (option (list ICAL.Event)) :=
  match icalData with
  | None => Normal None
  | Some text =>
      match icalParse text with
      | Some vevents => Normal (Some vevents)
      | None => Throw ParserError
      end
  end.

(** [moment().startOf("day").add(maximumNumberOfDays, "days")
      .subtract(1, "seconds")] *)
Definition future (now : Z) : Z :=
  Moment.subtractSeconds 1
    (Moment.addDays zone (maximumNumberOfDays cfg) (Moment.startOfDay zone now)).

(** The [for ... of] loop of [filterEvents], with [goodEvents] as
    accumulator; [continue] is the recursive call that adds nothing. *)
Fixpoint filterEvents_loop (now fut : Z) (vevents goodEvents : list ICAL.Event)
  : list ICAL.Event :=
  match vevents with
  | [] => goodEvents
  | event :: rest =>
      let startDate := ICAL.toJSDate (ICAL.startDate event) in
      let endDate := ICAL.toJSDate (ICAL.endDate event) in
      if Moment.isBefore endDate now
      then filterEvents_loop now fut rest goodEvents
      else if Moment.isAfter startDate fut
      then filterEvents_loop now fut rest goodEvents
      else filterEvents_loop now fut rest (push goodEvents event)
  end.

(** [filterEvents(vevents)], run when the clock reads [now]. *)
Definition filterEvents (now : Z) (vevents : list ICAL.Event) : list ICAL.Event :=
  filterEvents_loop now (future now) vevents [].

(** The object literal of lines 99-108. *)
Definition translate (event : ICAL.Event) : Out.CalendarEvent :=
  {| Out.title := ICAL.summary event;
     Out.startDate := Moment.format_x (ICAL.toJSDate (ICAL.startDate event));
     Out.endDate := Moment.format_x (ICAL.toJSDate (ICAL.endDate event));
     Out.fullDayEvent := ICAL.fullDayEvent event;
     Out.class := ICAL.class event;
     Out.location := ICAL.location event;
     Out.geo := ICAL.geo event;
     Out.description := ICAL.description event |}.

(** [function(a, b) { return a.startDate - b.startDate; }]: the operands
    are the time objects, not their instants. *)
Definition byStartDate (a b : ICAL.Event) : number :=
  minus (ICAL.toNumber (ICAL.startDate a)) (ICAL.toNumber (ICAL.startDate b)).

(** [broadcastEvents()]: calls [eventsReceivedCallback(self)]. *)
Definition broadcastEvents : M Fetcher unit := modify log_received.

(** [filteredEvents.forEach(event => { events.push({...}) })] *)
Definition pushAll (filteredEvents : list ICAL.Event) : M Fetcher unit :=
  fold_left
    (fun (m : M Fetcher unit) event =>
       m ;; modify (fun f => set_events (push (events f) (translate event)) f))
    filteredEvents (ret tt).

(** [retrieveCallback(err, response, body)] *)
Definition retrieveCallback (r : Reply) : M Fetcher unit :=
  match response r with
  | None =>
      (* the log line reads [response.statusCode] *)
      throw TypeError
  | Some statusCode =>
      if negb (statusCode =? 200) then
        f <- get ;;
        if failedRetrievals f <? 3 then
          modify (set_failedRetrievals (failedRetrievals f + 1)) ;;
          scheduleTimer 10000
        else
          modify (set_failedRetrievals 0) ;;
          scheduleTimer (reloadInterval cfg)
      else
        modify (set_failedRetrievals 0) ;;
        allEvents <- lift (parseCalendar (body r)) ;;
        match allEvents with
        | None =>
            (* [allEvents.length] on [undefined] *)
            throw TypeError
        | Some allEvents =>
            (if (0 <? Z.of_nat (List.length allEvents)) then
               let filteredEvents := filterEvents (clock r) allEvents in
               let filteredEvents := sort byStartDate filteredEvents in
               let filteredEvents := slice0 (maximumEntries cfg) filteredEvents in
               modify (set_events []) ;;
               pushAll filteredEvents ;;
               broadcastEvents
             else ret tt) ;;
            scheduleTimer (reloadInterval cfg)
        end
  end.

(** [new Date(v)], as its time value; [None] is an invalid date. *)
Definition newDate (v : value) : option Z :=
  match v with
  | Undefined => None
  | Number n => timeClip n
  | Text s => match dateParse s with Some t => timeClip t | None => None end
  | Date t => timeClip t
  end.

(** [ToNumber] *)
Definition toNumber (v : value) : option Z :=
  match v with
  | Undefined => None
  | Number n => Some n
  | Text s => stringToNumber s
  | Date t => Some t
  end.

(** [a - b === n] *)
Definition difference_is (a b : value) (n : Z) : bool :=
  match toNumber a, toNumber b with
  | Some x, Some y => x - y =? n
  | _, _ => false
  end.

(** [d.getHours() === 0 && d.getMinutes() === 0] *)
Definition midnightHourAndMinute (d : option Z) : bool :=
  match d with
  | Some t => (Moment.getHours zone t =? 0) && (Moment.getMinutes zone t =? 0)
  | None => false
  end.

(** [isFullDayEvent(event)] *)
Definition isFullDayEvent (event : ICAL.Event) : completion bool :=
  match length_is_8 (ICAL.start event) with
  | Throw e => Throw e
  | Normal true => Normal true
  | Normal false =>
      let start := or_zero (ICAL.start event) in
      let startDate := newDate start in
      let end_ := or_zero (ICAL.end_ event) in
      if difference_is end_ start (24 * 60 * 60 * 1000)
         && midnightHourAndMinute startDate
      then Normal true
      else Normal false
  end.

(** [startFetch()] *)
Definition startFetch : M Fetcher unit := fetchCalendar.

(** One cycle: the timer (or [startFetch]) runs [fetchCalendar], and the
    request it issues completes with [r]. *)
Definition cycle (r : Reply) : M Fetcher unit :=
  fetchCalendar ;; retrieveCallback r.

(** The fetcher after a sequence of cycles. *)
Definition runFrom (f : Fetcher) (replies : list Reply) : Fetcher :=
  fold_left (fun f r => fst (cycle r f)) replies f.

Definition run (replies : list Reply) : Fetcher := runFrom initial replies.

(** *** The properties the specification words *)

(** The event passes the time window at [now]. *)
Definition inWindow (now : Z) (e : ICAL.Event) : Prop :=
  now <= ICAL.toJSDate (ICAL.endDate e) /\
  ICAL.toJSDate (ICAL.startDate e) <= future now.

Definition inWindowb (now : Z) (e : ICAL.Event) : bool :=
  negb (ICAL.toJSDate (ICAL.endDate e) <? now) &&
  negb (future now <? ICAL.toJSDate (ICAL.startDate e)).

(** What a cycle publishes from the parsed components [l]: the window,
    the sort, the cut and the translation, in the order of lines 87-109. *)
Definition published (now : Z) (l : list ICAL.Event) : list Out.CalendarEvent :=
  map translate (slice0 (maximumEntries cfg) (sort byStartDate (filterEvents now l))).

(** The reply carries a status other than 200. *)
Definition failed (r : Reply) : Prop :=
  exists statusCode, response r = Some statusCode /\ statusCode <> 200.

(** The instant a published event starts at. *)
Definition startInstant (e : Out.CalendarEvent) : Z :=
  Moment.valueOf_x (Out.startDate e).

(** The title is one of the configured exclusions. *)
Definition excluded (e : Out.CalendarEvent) : Prop :=
  exists s, Out.title e = Some s /\ In s (excludedEvents cfg).

End CalendarFetcher.

(** ** A concrete fetcher, for the examples *)

Module Sample.

Definition day : Z := Moment.msPerDay.
Definition hour : Z := Moment.msPerHour.

(** 2023-11-14T22:13:20Z *)
Definition T : Z := 1700000000000.

(** The process runs in UTC. *)
Definition utc : Moment.Zone := Moment.fixed 0.

Definition timed (name : string) (from to : Z) : ICAL.Event :=
  {| ICAL.summary := Some name;
     ICAL.startDate := {| ICAL.toJSDate := from |};
     ICAL.endDate := {| ICAL.toJSDate := to |};
     ICAL.fullDayEvent := None;
     ICAL.class := None;
     ICAL.location := None;
     ICAL.geo := None;
     ICAL.description := None;
     ICAL.start := Date from;
     ICAL.end_ := Date to |}.

Definition dentist : ICAL.Event := timed "Dentist" (T + day) (T + day + hour).
Definition review : ICAL.Event := timed "Review" (T + 5 * day) (T + 5 * day + hour).
Definition congress : ICAL.Event := timed "Congress" (T + 40 * day) (T + 41 * day).
Definition lecture : ICAL.Event := timed "Lecture" (T - 2 * day) (T - day).
Definition birthday : ICAL.Event := timed "Birthday" (T + day) (T + day + hour).
Definition standup : ICAL.Event := timed "Standup" (T + day) (T + day + hour).

(** A whole day written as a date, with no flag set by the parser. *)
Definition holiday : ICAL.Event :=
  {| ICAL.summary := Some "Holiday"%string;
     ICAL.startDate := {| ICAL.toJSDate := 1700006400000 |};
     ICAL.endDate := {| ICAL.toJSDate := 1700092800000 |};
     ICAL.fullDayEvent := None;
     ICAL.class := None;
     ICAL.location := None;
     ICAL.geo := None;
     ICAL.description := None;
     ICAL.start := Text "20231115";
     ICAL.end_ := Text "20231116" |}.

(** Twenty-four hours from half a minute past midnight, UTC. *)
Definition vigil : ICAL.Event := timed "Vigil" 30000 (30000 + day).

Definition config : Config :=
  {| url := "http://example.org/calendar.ics";
     reloadInterval := 300000;
     excludedEvents := ["Birthday"%string];
     maximumEntries := 2;
     maximumNumberOfDays := 30;
     auth := None |}.

(** A stand-in for the vendored parser: four feeds, anything else is
    rejected. *)
Definition parse (text : string) : option (list ICAL.Event) :=
  if String.eqb text "work" then Some [congress; review; dentist]
  else if String.eqb text "old" then Some [lecture]
  else if String.eqb text "family" then Some [birthday; standup]
  else if String.eqb text "none" then Some []
  else None.

Definition noNumber (s : string) : option Z := None.

Definition reply (status : Z) (text : string) : Reply :=
  {| response := Some status; body := Some text; clock := T |}.

Definition nullBody : Reply :=
  {| response := Some 200; body := None; clock := T |}.

Definition after (replies : list Reply) : Fetcher := run config utc parse replies.

End Sample.

(** ** The timer table

    [scheduleTimer] and [fetchCalendar] once more, this time over the table
    of timeouts Node keeps: [setTimeout] enters a timeout under a fresh
    handle, [clearTimeout] removes the one its argument names, and a
    timeout that comes due leaves the table and runs its function, which
    here is [fetchCalendar]. *)

Module Timers.

Record Loop := {
  pending : list (nat * Z);
  reloadTimer : option nat;
  nextHandle : nat
}.

(** [clearTimeout(h)]; [null] and handles no longer pending are ignored. *)
Definition clearTimeout (h : option nat) (table : list (nat * Z)) : list (nat * Z) :=
  match h with
  | None => table
  | Some h => filter (fun p => negb (Nat.eqb (fst p) h)) table
  end.

(** [scheduleTimer(interval)] *)
Definition scheduleTimer (interval : Z) (L : Loop) : Loop :=
  let table := clearTimeout (reloadTimer L) (pending L) in
  {| pending := table ++ [(nextHandle L, interval)];
     reloadTimer := Some (nextHandle L);
     nextHandle := S (nextHandle L) |}.

(** [fetchCalendar()], as far as the timer goes. *)
Definition fetchCalendar (L : Loop) : Loop :=
  {| pending := clearTimeout (reloadTimer L) (pending L);
     reloadTimer := None;
     nextHandle := nextHandle L |}.

(** What can happen to a fetcher: [startFetch()] is called; the timeout
    [h] comes due; [retrieveCallback] runs up to one of its
    [scheduleTimer] calls; [retrieveCallback] throws before it gets
    there. *)
Inductive action :=
| StartFetch
| Due (h : nat)
| Completed (interval : Z)
| Thrown.

Definition isPending (h : nat) (L : Loop) : bool :=
  existsb (fun p => Nat.eqb (fst p) h) (pending L).

Definition step (L : Loop) (a : action) : Loop :=
  match a with
  | StartFetch => fetchCalendar L
  | Due h =>
      if isPending h L then
        fetchCalendar
          {| pending := filter (fun p => negb (Nat.eqb (fst p) h)) (pending L);
             reloadTimer := reloadTimer L;
             nextHandle := nextHandle L |}
      else L
  | Completed interval => scheduleTimer interval L
  | Thrown => L
  end.

Definition initial : Loop :=
  {| pending := []; reloadTimer := None; nextHandle := 0 |}.

Definition after (actions : list action) : Loop := fold_left step actions initial.

End Timers.

(** ** Replies *)

(** The reply has status 200 and a body the parser accepts. *)
Definition parses (icalParse : string -> option (list ICAL.Event)) (r : Reply) : Prop :=
  exists text l,
    response r = Some 200 /\ body r = Some text /\ icalParse text = Some l.

(** ** More sample data *)

Module More.

(** The sample configuration with a window of sixty days. *)
Definition wide : Config :=
  {| url := url Sample.config;
     reloadInterval := reloadInterval Sample.config;
     excludedEvents := excludedEvents Sample.config;
     maximumEntries := 5;
     maximumNumberOfDays := 60;
     auth := None |}.

Definition noResponse : Reply :=
  {| response := None; body := None; clock := Sample.T |}.

(** The sample configuration with no look-ahead. *)
Definition today : Config :=
  {| url := url Sample.config;
     reloadInterval := reloadInterval Sample.config;
     excludedEvents := [];
     maximumEntries := 5;
     maximumNumberOfDays := 0;
     auth := None |}.

(** New York in the autumn of 2023: four hours behind UTC until
    2023-11-05T06:00Z, five hours from then on; the hour from 01:00 to 02:00
    local time that comes twice is taken the first time. *)
Definition eastern : Moment.Zone :=
  {| Moment.offsetAt := fun t => if t <? 1699164000000 then -14400000 else -18000000;
     Moment.resolve := fun l => if l <? 1699149600000 then l + 14400000 else l + 18000000 |}.

(** 2023-10-31T12:00 in New York. *)
Definition noon : Z := 1698768000000.

(** Half an hour before midnight on 2023-11-29 in New York. *)
Definition lateShow : ICAL.Event :=
  Sample.timed "Late show" 1701318600000 1701322200000.

(** Four days, begun the day before yesterday. *)
Definition retreat : ICAL.Event :=
  Sample.timed "Retreat" (Sample.T - 2 * Sample.day) (Sample.T + 2 * Sample.day).

End More.

(** * Properties *)

(** ** Arrays *)

Section Arrays.
Context {A : Type}.

Lemma slice0_firstn (n : Z) (l : list A) :
  exists k, slice0 n l = firstn k l.
Proof. unfold slice0. eexists. reflexivity. Qed.

Lemma slice0_length (n : Z) (l : list A) :
  0 <= n -> Z.of_nat (List.length (slice0 n l)) <= n.
Proof.
  intros Hn. unfold slice0.
  destruct (Z.ltb_spec n 0) as [Hneg | _]; [lia |].
  rewrite length_firstn. lia.
Qed.

Lemma firstn_incl (k : nat) (l : list A) (x : A) :
  In x (firstn k l) -> In x l.
Proof.
  revert k. induction l as [| y l IH]; intros [| k]; simpl; try tauto.
  intros [-> | Hx]; [left; reflexivity | right; eapply IH; exact Hx].
Qed.

Section Sort.
Variable cmp : A -> A -> number.

Lemma insert_perm (x : A) (l : list A) : Permutation (x :: l) (insert cmp x l).
Proof.
  induction l as [| y l IH]; simpl; [reflexivity |].
  destruct (notGreater (cmp x y)); [reflexivity |].
  rewrite perm_swap. constructor. exact IH.
Qed.

Lemma sort_perm (l : list A) : Permutation l (sort cmp l).
Proof.
  induction l as [| x l IH]; simpl; [constructor |].
  rewrite <- insert_perm. constructor. exact IH.
Qed.

(** A comparator that answers [NaN] every time leaves the array as it
    is. *)
Lemma sort_NaN (l : list A) :
  (forall a b, cmp a b = None) -> sort cmp l = l.
Proof.
  intros Hnan. induction l as [| x l IH]; [reflexivity |].
  simpl. rewrite IH. destruct l as [| y l]; [reflexivity |].
  simpl. rewrite Hnan. reflexivity.
Qed.
End Sort.
End Arrays.

(** ** Timestamps *)

Lemma valueOf_format_x (t : Z) : Moment.valueOf_x (Moment.format_x t) = t.
Proof.
  unfold Moment.valueOf_x, Moment.format_x.
  rewrite NilZero.isi.
  - apply DecimalZ.of_to.
  - destruct t; simpl; try discriminate.
    intros [= H]. exact (DecimalPos.Unsigned.to_uint_nonnil _ H).
  - destruct t; simpl; try discriminate.
    intros [= H]. exact (DecimalPos.Unsigned.to_uint_nonnil _ H).
Qed.

(** ** The steps of a cycle *)

Section Steps.
Variable cfg : Config.
Variable zone : Moment.Zone.
Variable icalParse : string -> option (list ICAL.Event).

Lemma inWindowb_spec (now : Z) (e : ICAL.Event) :
  inWindowb cfg zone now e = true <-> inWindow cfg zone now e.
Proof.
  unfold inWindowb, inWindow.
  rewrite andb_true_iff, !negb_true_iff, !Z.ltb_ge. reflexivity.
Qed.

Lemma filterEvents_loop_filter (now fut : Z) (vevents goodEvents : list ICAL.Event) :
  filterEvents_loop now fut vevents goodEvents =
  goodEvents ++
    filter
      (fun e =>
         negb (ICAL.toJSDate (ICAL.endDate e) <? now) &&
         negb (fut <? ICAL.toJSDate (ICAL.startDate e)))
      vevents.
Proof.
  revert goodEvents.
  induction vevents as [| event rest IH]; intros goodEvents; simpl.
  - rewrite app_nil_r. reflexivity.
  - unfold Moment.isBefore, Moment.isAfter.
    destruct (ICAL.toJSDate (ICAL.endDate event) <? now); simpl; [apply IH |].
    destruct (fut <? ICAL.toJSDate (ICAL.startDate event)); simpl; [apply IH |].
    rewrite IH. unfold push. rewrite <- app_assoc. reflexivity.
Qed.

Lemma filterEvents_filter (now : Z) (vevents : list ICAL.Event) :
  filterEvents cfg zone now vevents = filter (inWindowb cfg zone now) vevents.
Proof. unfold filterEvents. rewrite filterEvents_loop_filter. reflexivity. Qed.

Lemma pushAll_from (l : list ICAL.Event) (m : M Fetcher unit) (f g : Fetcher) :
  m f = (g, Normal tt) ->
  fold_left
    (fun (m : M Fetcher unit) event =>
       bind m (fun _ => modify (fun f => set_events (push (events f) (translate event)) f)))
    l m f
  = (set_events (events g ++ map translate l) g, Normal tt).
Proof.
  revert m g. induction l as [| e l IH]; intros m g Hm; simpl.
  - rewrite Hm, app_nil_r. destruct g; reflexivity.
  - rewrite (IH _ (set_events (push (events g) (translate e)) g)).
    + unfold set_events, push. simpl. rewrite <- app_assoc. reflexivity.
    + unfold bind, modify. rewrite Hm. reflexivity.
Qed.

Lemma pushAll_map (l : list ICAL.Event) (f : Fetcher) :
  pushAll l f = (set_events (events f ++ map translate l) f, Normal tt).
Proof. unfold pushAll. apply pushAll_from. reflexivity. Qed.

(** A reply with a status other than 200. *)
Lemma retrieveCallback_failed (r : Reply) (f : Fetcher) :
  failed r ->
  retrieveCallback cfg zone icalParse r f =
  ({| reloadTimer :=
        Some (if failedRetrievals f <? 3 then 10000 else reloadInterval cfg);
      events := events f;
      failedRetrievals :=
        if failedRetrievals f <? 3 then failedRetrievals f + 1 else 0;
      received := received f |}, Normal tt).
Proof.
  intros (statusCode & Hr & Hcode).
  unfold retrieveCallback. rewrite Hr.
  apply Z.eqb_neq in Hcode. rewrite Hcode. simpl.
  unfold bind, get.
  destruct (failedRetrievals f <? 3); reflexivity.
Qed.

(** A reply with status 200 whose body the parser turns into [l]. *)
Lemma retrieveCallback_parsed (r : Reply) (text : string) (l : list ICAL.Event)
  (f : Fetcher) :
  response r = Some 200 -> body r = Some text -> icalParse text = Some l ->
  retrieveCallback cfg zone icalParse r f =
  (match l with
   | [] =>
       {| reloadTimer := Some (reloadInterval cfg);
          events := events f;
          failedRetrievals := 0;
          received := received f |}
   | _ :: _ =>
       {| reloadTimer := Some (reloadInterval cfg);
          events := published cfg zone (clock r) l;
          failedRetrievals := 0;
          received := received f ++ [published cfg zone (clock r) l] |}
   end, Normal tt).
Proof.
  intros Hr Hb Hp.
  unfold retrieveCallback, parseCalendar. rewrite Hr, Hb, Hp. simpl.
  unfold bind at 1. simpl. unfold bind at 1. simpl.
  destruct l as [| e l]; [reflexivity |].
  change (0 <? Z.of_nat (List.length (e :: l))) with true. cbv iota.
  unfold bind at 1. unfold bind at 1. simpl.
  unfold bind at 1. rewrite pushAll_map. reflexivity.
Qed.

(** A reply with status 200 that [parseCalendar] yields no array for:
    the callback ends in a throw before [scheduleTimer]. *)
Lemma retrieveCallback_unparsed (r : Reply) (f : Fetcher) :
  response r = Some 200 ->
  body r = None \/ (exists text, body r = Some text /\ icalParse text = None) ->
  exists e,
    retrieveCallback cfg zone icalParse r f =
    (set_failedRetrievals 0 f, Throw e).
Proof.
  intros Hr Hb. unfold retrieveCallback, parseCalendar. rewrite Hr. simpl.
  destruct Hb as [Hb | (text & Hb & Hp)]; rewrite Hb; [| rewrite Hp];
    eexists; reflexivity.
Qed.

Lemma fetchCalendar_clears (f : Fetcher) :
  fetchCalendar f = (set_reloadTimer None f, Normal tt).
Proof. reflexivity. Qed.

Lemma cycle_callback (r : Reply) (f : Fetcher) :
  cycle cfg zone icalParse r f =
  retrieveCallback cfg zone icalParse r (set_reloadTimer None f).
Proof. reflexivity. Qed.

End Steps.

(** ** The cycle, reply by reply *)

Section Cycle.
Variable cfg : Config.
Variable zone : Moment.Zone.
Variable icalParse : string -> option (list ICAL.Event).

(** The four ways a reply can go. *)
Lemma reply_cases (r : Reply) :
  response r = None \/
  failed r \/
  (response r = Some 200 /\
   (body r = None \/ exists text, body r = Some text /\ icalParse text = None)) \/
  (exists text l,
     response r = Some 200 /\ body r = Some text /\ icalParse text = Some l).
Proof.
  destruct (response r) as [statusCode |] eqn:Hr; [| left; reflexivity].
  right. destruct (Z.eq_dec statusCode 200) as [-> | Hne].
  - right. destruct (body r) as [text |] eqn:Hb.
    + destruct (icalParse text) as [l |] eqn:Hp.
      * right. exists text, l. auto.
      * left. split; [reflexivity |]. right. exists text. auto.
    + left. auto.
  - left. exists statusCode. auto.
Qed.

Lemma retrieveCallback_no_response (r : Reply) (f : Fetcher) :
  response r = None ->
  retrieveCallback cfg zone icalParse r f = (f, Throw TypeError).
Proof. intros Hr. unfold retrieveCallback. rewrite Hr. reflexivity. Qed.

(** A cycle either keeps the held list or replaces it by what it
    publishes. *)
Lemma cycle_events (r : Reply) (f : Fetcher) :
  events (fst (cycle cfg zone icalParse r f)) = events f \/
  exists l,
    events (fst (cycle cfg zone icalParse r f)) =
    published cfg zone (clock r) l.
Proof.
  rewrite cycle_callback.
  destruct (reply_cases r) as [Hr | [Hr | [[Hr Hb] | (text & l & Hr & Hb & Hp)]]].
  - rewrite retrieveCallback_no_response by exact Hr. left. reflexivity.
  - rewrite retrieveCallback_failed by exact Hr. left. reflexivity.
  - destruct (retrieveCallback_unparsed cfg zone icalParse r
                (set_reloadTimer None f) Hr Hb) as [e ->].
    left. reflexivity.
  - rewrite (retrieveCallback_parsed cfg zone icalParse r text l _ Hr Hb Hp).
    destruct l; [left | right; eexists]; reflexivity.
Qed.

(** The counter stays within its range over a cycle. *)
Lemma cycle_failedRetrievals (r : Reply) (f : Fetcher) :
  0 <= failedRetrievals f <= 3 ->
  0 <= failedRetrievals (fst (cycle cfg zone icalParse r f)) <= 3.
Proof.
  intros Hf. rewrite cycle_callback.
  destruct (reply_cases r) as [Hr | [Hr | [[Hr Hb] | (text & l & Hr & Hb & Hp)]]].
  - rewrite retrieveCallback_no_response by exact Hr. exact Hf.
  - rewrite retrieveCallback_failed by exact Hr. simpl.
    destruct (Z.ltb_spec (failedRetrievals f) 3); lia.
  - destruct (retrieveCallback_unparsed cfg zone icalParse r
                (set_reloadTimer None f) Hr Hb) as [e ->].
    simpl. lia.
  - rewrite (retrieveCallback_parsed cfg zone icalParse r text l _ Hr Hb Hp).
    destruct l; simpl; lia.
Qed.

(** A reply with status 200 zeroes the counter, whatever its body. *)
Lemma cycle_success_resets (r : Reply) (f : Fetcher) :
  response r = Some 200 ->
  failedRetrievals (fst (cycle cfg zone icalParse r f)) = 0.
Proof.
  intros Hr. rewrite cycle_callback.
  destruct (reply_cases r) as [Hn | [Hn | [[_ Hb] | (text & l & _ & Hb & Hp)]]].
  - congruence.
  - destruct Hn as (statusCode & Hs & Hne). congruence.
  - destruct (retrieveCallback_unparsed cfg zone icalParse r
                (set_reloadTimer None f) Hr Hb) as [e ->].
    reflexivity.
  - rewrite (retrieveCallback_parsed cfg zone icalParse r text l _ Hr Hb Hp).
    destruct l; reflexivity.
Qed.

(** A reply with status 200 and a body the parser accepts re-arms the
    timer with the reload interval, events or none. *)
Lemma cycle_parsed_rearms (r : Reply) (text : string) (l : list ICAL.Event)
  (f : Fetcher) :
  response r = Some 200 -> body r = Some text -> icalParse text = Some l ->
  reloadTimer (fst (cycle cfg zone icalParse r f)) = Some (reloadInterval cfg) /\
  snd (cycle cfg zone icalParse r f) = Normal tt.
Proof.
  intros Hr Hb Hp. rewrite cycle_callback.
  rewrite (retrieveCallback_parsed cfg zone icalParse r text l _ Hr Hb Hp).
  destruct l; split; reflexivity.
Qed.

(** An invariant of the held list that every published list has holds
    after any number of cycles. *)
Lemma runFrom_events_invariant (P : list Out.CalendarEvent -> Prop) :
  (forall now l, P (published cfg zone now l)) ->
  forall replies f,
    P (events f) -> P (events (runFrom cfg zone icalParse f replies)).
Proof.
  intros Hpub replies.
  induction replies as [| r replies IH]; intros f Hf; simpl; [exact Hf |].
  apply IH.
  destruct (cycle_events r f) as [-> | [l ->]]; [exact Hf | apply Hpub].
Qed.

Lemma runFrom_failedRetrievals (replies : list Reply) (f : Fetcher) :
  0 <= failedRetrievals f <= 3 ->
  0 <= failedRetrievals (runFrom cfg zone icalParse f replies) <= 3.
Proof.
  revert f. induction replies as [| r replies IH]; intros f Hf; simpl; [exact Hf |].
  apply IH. apply cycle_failedRetrievals. exact Hf.
Qed.

Lemma startInstant_translate (e : ICAL.Event) :
  startInstant (translate e) = ICAL.toJSDate (ICAL.startDate e).
Proof. unfold startInstant, translate. simpl. apply valueOf_format_x. Qed.

Lemma published_length (now : Z) (l : list ICAL.Event) :
  0 <= maximumEntries cfg ->
  Z.of_nat (List.length (published cfg zone now l)) <= maximumEntries cfg.
Proof.
  intros Hmax. unfold published. rewrite length_map.
  apply slice0_length. exact Hmax.
Qed.

(** The comparator answers [NaN] for every pair of events, so the sort
    leaves the filtered events in the order of the feed. *)
Lemma sort_byStartDate (l : list ICAL.Event) : sort byStartDate l = l.
Proof. apply sort_NaN. reflexivity. Qed.

Lemma published_feed_order (now : Z) (l : list ICAL.Event) :
  published cfg zone now l =
  map translate (slice0 (maximumEntries cfg) (filterEvents cfg zone now l)).
Proof. unfold published. rewrite sort_byStartDate. reflexivity. Qed.

End Cycle.

(** ** The time of day *)

Section LocalTime.
Variable zone : Moment.Zone.

Lemma timeOfDay_range (t : Z) : 0 <= Moment.timeOfDay zone t < Moment.msPerDay.
Proof. unfold Moment.timeOfDay. apply Z.mod_pos_bound. reflexivity. Qed.

(** Hour and minute are both zero exactly in the first minute of the
    local day. *)
Lemma hour_and_minute_zero (t : Z) :
  (Moment.getHours zone t =? 0) && (Moment.getMinutes zone t =? 0) = true <->
  0 <= Moment.timeOfDay zone t < Moment.msPerMinute.
Proof.
  pose proof (timeOfDay_range t) as Hr.
  unfold Moment.getHours, Moment.getMinutes.
  assert (Hmod : Moment.wallClock zone t mod Moment.msPerHour =
                 Moment.timeOfDay zone t mod Moment.msPerHour).
  { unfold Moment.timeOfDay. symmetry. apply Z.mod_mod_divide.
    exists 24. reflexivity. }
  rewrite Hmod. clear Hmod.
  set (d := Moment.timeOfDay zone t) in *.
  unfold Moment.msPerDay, Moment.msPerHour, Moment.msPerMinute in *.
  rewrite andb_true_iff, !Z.eqb_eq.
  split.
  - intros [Hh Hm].
    assert (Hd : d < 3600000).
    { apply Z.div_small_iff in Hh; lia. }
    rewrite Z.mod_small in Hm by lia.
    apply Z.div_small_iff in Hm; lia.
  - intros Hd. split.
    + apply Z.div_small. lia.
    + rewrite Z.mod_small by lia. apply Z.div_small. lia.
Qed.
End LocalTime.

(** A zone with one offset all year is regular. *)
Lemma fixed_regular (offset : Z) : Moment.regular (Moment.fixed offset).
Proof.
  unfold Moment.regular, Moment.wallClock, Moment.msPerDay. simpl.
  split; intros; lia.
Qed.

(** So is a zone that changes its offset, such as New York's. *)
Lemma eastern_regular : Moment.regular More.eastern.
Proof.
  unfold Moment.regular, Moment.wallClock, Moment.msPerDay. simpl.
  split.
  - intros l l' Hl.
    destruct (Z.ltb_spec l 1699149600000), (Z.ltb_spec l' 1699149600000); lia.
  - intros l.
    destruct (Z.ltb_spec l 1699149600000) as [Hl | Hl].
    + destruct (Z.ltb_spec (l + 14400000) 1699164000000) as [Ht | Ht]; [| lia].
      replace (l + 14400000 + -14400000) with l by lia.
      destruct (Z.ltb_spec l 1699149600000); lia.
    + destruct (Z.ltb_spec (l + 18000000) 1699164000000) as [Ht | Ht]; [lia |].
      replace (l + 18000000 + -18000000) with l by lia.
      destruct (Z.ltb_spec l 1699149600000); lia.
Qed.

(** In such a zone the start of the day is the last local midnight not
    after [t], and adding days adds as many times 24 hours. *)
Lemma startOfDay_fixed (offset t : Z) :
  Moment.timeOfDay (Moment.fixed offset) (Moment.startOfDay (Moment.fixed offset) t) = 0 /\
  Moment.startOfDay (Moment.fixed offset) t <= t
    < Moment.startOfDay (Moment.fixed offset) t + Moment.msPerDay.
Proof.
  pose proof (timeOfDay_range (Moment.fixed offset) t) as Hr.
  unfold Moment.startOfDay, Moment.timeOfDay, Moment.wallClock in *. simpl in *.
  split; [| lia].
  replace (t + offset - (t + offset) mod Moment.msPerDay - offset + offset)
    with ((t + offset) - (t + offset) mod Moment.msPerDay) by lia.
  rewrite Zminus_mod_idemp_r, Z.sub_diag. reflexivity.
Qed.

Lemma addDays_fixed (offset n t : Z) :
  Moment.addDays (Moment.fixed offset) n t = t + n * 86400000.
Proof. unfold Moment.addDays, Moment.wallClock, Moment.msPerDay. simpl. lia. Qed.

(** * The claims *)

Section Claims.
Variable cfg : Config.
Variable zone : Moment.Zone.
Variable icalParse : string -> option (list ICAL.Event).
Variable stringToNumber : string -> option Z.
Variable dateParse : string -> option Z.

(** C1, as amended.  In a cycle whose reply has status 200 and a body the
    parser turns into the components [l], the held list is replaced by
    what the cycle publishes and the receive-listener is called exactly
    when [l] is non-empty, even if the window or the cut leaves nothing
    of it; when [l] is empty the held list and the listener are left
    alone. *)
Theorem C1_replaced_iff_components_parsed
  (f : Fetcher) (r : Reply) (text : string) (l : list ICAL.Event) :
  response r = Some 200 -> body r = Some text -> icalParse text = Some l ->
  let f' := fst (cycle cfg zone icalParse r f) in
  (l <> [] ->
     events f' = published cfg zone (clock r) l /\
     received f' = received f ++ [events f']) /\
  (l = [] -> events f' = events f /\ received f' = received f).
Proof.
  intros Hr Hb Hp f'. subst f'. rewrite cycle_callback.
  rewrite (retrieveCallback_parsed cfg zone icalParse r text l _ Hr Hb Hp).
  destruct l as [| e l]; simpl; split; intros Hl; try congruence; auto.
Qed.

(** C3, as amended.  Starting with the counter at 0, each of three
    consecutive replies with a status other than 200 schedules the next
    attempt after 10 seconds and leaves the counter at 1, 2 and 3; the
    fourth such reply schedules the next attempt after the reload
    interval and puts the counter back to 0. *)
Theorem C3_fourth_failure_waits_reload_interval
  (f : Fetcher) (r1 r2 r3 r4 : Reply) :
  failedRetrievals f = 0 ->
  failed r1 -> failed r2 -> failed r3 -> failed r4 ->
  let f1 := runFrom cfg zone icalParse f [r1] in
  let f2 := runFrom cfg zone icalParse f [r1; r2] in
  let f3 := runFrom cfg zone icalParse f [r1; r2; r3] in
  let f4 := runFrom cfg zone icalParse f [r1; r2; r3; r4] in
  (reloadTimer f1 = Some 10000 /\ failedRetrievals f1 = 1) /\
  (reloadTimer f2 = Some 10000 /\ failedRetrievals f2 = 2) /\
  (reloadTimer f3 = Some 10000 /\ failedRetrievals f3 = 3) /\
  (reloadTimer f4 = Some (reloadInterval cfg) /\ failedRetrievals f4 = 0).
Proof.
  intros H0 H1 H2 H3 H4. unfold runFrom. simpl.
  rewrite !cycle_callback.
  rewrite (retrieveCallback_failed cfg zone icalParse r1 _ H1).
  cbn [fst set_reloadTimer failedRetrievals events received]. rewrite H0.
  rewrite (retrieveCallback_failed cfg zone icalParse r2 _ H2).
  cbn [fst set_reloadTimer failedRetrievals events received].
  rewrite (retrieveCallback_failed cfg zone icalParse r3 _ H3).
  cbn [fst set_reloadTimer failedRetrievals events received].
  rewrite (retrieveCallback_failed cfg zone icalParse r4 _ H4).
  simpl. repeat split; reflexivity.
Qed.


(** C6.  With [maximumEntries] at least 0, the held list has at most
    [maximumEntries] events after any sequence of cycles. *)
Theorem C6_at_most_maximumEntries (replies : list Reply) :
  0 <= maximumEntries cfg ->
  Z.of_nat (List.length (events (run cfg zone icalParse replies)))
  <= maximumEntries cfg.
Proof.
  intros Hmax. unfold run.
  apply (runFrom_events_invariant cfg zone icalParse
           (fun l => Z.of_nat (List.length l) <= maximumEntries cfg)).
  - intros now l. apply published_length. exact Hmax.
  - simpl. exact Hmax.
Qed.

(** C10.  After any sequence of cycles the counter lies between 0 and 3,
    every further reply, of whatever kind, keeps it there, and a reply
    with status 200 puts it at 0. *)
Theorem C10_failedRetrievals_in_range (replies : list Reply) (r : Reply) :
  let f := run cfg zone icalParse replies in
  let f' := fst (cycle cfg zone icalParse r f) in
  0 <= failedRetrievals f <= 3 /\
  0 <= failedRetrievals f' <= 3 /\
  (response r = Some 200 -> failedRetrievals f' = 0).
Proof.
  intros f f'.
  assert (Hf : 0 <= failedRetrievals f <= 3).
  { apply runFrom_failedRetrievals. simpl. lia. }
  split; [exact Hf |]. split.
  - apply cycle_failedRetrievals. exact Hf.
  - apply cycle_success_resets.
Qed.

End Claims.

Section FullDay.
Variable zone : Moment.Zone.
Variable stringToNumber : string -> option Z.
Variable dateParse : string -> option Z.

Lemma timeClip_spec (t u : Z) :
  timeClip t = Some u <-> u = t /\ Z.abs t <= 8640000000000000.
Proof.
  unfold timeClip.
  destruct (Z.leb_spec (Z.abs t) 8640000000000000); split.
  - intros [= <-]. auto.
  - intros [-> _]. reflexivity.
  - discriminate.
  - intros [_ H']. lia.
Qed.

(** C9, as amended.  [isFullDayEvent] answers true when the event's start
    is an eight-character text.  For an event whose start and end are
    dates it answers true exactly when the end is 24 hours after the start
    and the start lies in the first minute after a local midnight: its
    local hour and minute are both 0, the seconds and milliseconds not
    being looked at. *)
Theorem C9_full_day_hour_and_minute (e : ICAL.Event) :
  (forall s,
     ICAL.start e = Text s -> String.length s = 8%nat ->
     isFullDayEvent zone stringToNumber dateParse e = Normal true) /\
  (forall s t,
     ICAL.start e = Date s -> ICAL.end_ e = Date t ->
     (isFullDayEvent zone stringToNumber dateParse e = Normal true <->
      t - s = 86400000 /\
      Z.abs s <= 8640000000000000 /\
      0 <= Moment.timeOfDay zone s < 60000)).
Proof.
  split.
  - intros s Hs Hlen. unfold isFullDayEvent. rewrite Hs. simpl.
    rewrite Hlen. reflexivity.
  - intros s t Hs Ht. unfold isFullDayEvent. rewrite Hs, Ht. simpl.
    unfold difference_is. simpl.
    change (24 * 60 * 60 * 1000) with 86400000.
    destruct (Z.eqb_spec (t - s) 86400000) as [Hd | Hd]; simpl.
    + destruct (timeClip s) as [u |] eqn:Hclip; simpl.
      * apply timeClip_spec in Hclip. destruct Hclip as [-> Hrange].
        destruct ((Moment.getHours zone s =? 0) && (Moment.getMinutes zone s =? 0))
          eqn:Hhm.
        -- apply hour_and_minute_zero in Hhm. split; [| reflexivity].
           intros _. repeat split; try assumption; apply Hhm.
        -- split; [discriminate |]. intros (_ & _ & Hm).
           apply hour_and_minute_zero in Hm. congruence.
      * split; [discriminate |]. intros (_ & Hrange & _).
        assert (Hsome : timeClip s = Some s) by (apply timeClip_spec; auto).
        congruence.
    + split; [discriminate |]. intros (Hd' & _). contradiction.
Qed.
End FullDay.

(** * The claims on the sample fetcher *)

(** The scenario of the specification: reload interval 300000 ms, two
    entries, thirty days, and a feed with events forty, five and one day
    from now, in that order.  The event beyond the horizon is dropped; the
    other two are published as the feed has them. *)
Example scenario_two_of_three :
  map Out.title (events (Sample.after [Sample.reply 200 "work"])) =
    [Some "Review"%string; Some "Dentist"%string] /\
  reloadTimer (Sample.after [Sample.reply 200 "work"]) = Some 300000.
Proof. vm_compute. split; reflexivity. Qed.

(** A horizon across the end of daylight saving in New York: thirty days
    from 2023-10-31 the window ends one second before the local midnight
    that begins 2023-11-30, which is thirty days and one hour after the
    local midnight that began 2023-10-31, and an event half an hour before
    that midnight is kept. *)
Example horizon_across_daylight_saving :
  future Sample.config More.eastern More.noon =
    Moment.startOfDay More.eastern More.noon + 30 * 86400000 + 3600000 - 1000 /\
  filterEvents Sample.config More.eastern More.noon [More.lateShow] = [More.lateShow].
Proof. vm_compute. split; reflexivity. Qed.

(** The schedule of three replies with status 503 and then one with status
    200: 10 s, 10 s, 10 s, then the reload interval, the counter going 1,
    2, 3, 0. *)
Example scenario_three_failures_then_success :
  map (fun n => let f := Sample.after
                           (firstn n [Sample.reply 503 ""; Sample.reply 503 "";
                                      Sample.reply 503 ""; Sample.reply 200 "work"]) in
                (reloadTimer f, failedRetrievals f))
    [1; 2; 3; 4]%nat =
  [(Some 10000, 1); (Some 10000, 2); (Some 10000, 3); (Some 300000, 0)].
Proof. vm_compute. reflexivity. Qed.

(** C1 on a feed of three events, two of which are kept. *)
Lemma C1_witness :
  let f' := fst (cycle Sample.config Sample.utc Sample.parse (Sample.reply 200 "work") initial) in
  ([Sample.congress; Sample.review; Sample.dentist] <> [] ->
     events f' =
       published Sample.config Sample.utc (clock (Sample.reply 200 "work"))
         [Sample.congress; Sample.review; Sample.dentist] /\
     received f' = received initial ++ [events f']) /\
  ([Sample.congress; Sample.review; Sample.dentist] = [] ->
     events f' = events initial /\ received f' = received initial).
Proof.
  exact (C1_replaced_iff_components_parsed Sample.config Sample.utc Sample.parse
           initial (Sample.reply 200 "work") "work"
           [Sample.congress; Sample.review; Sample.dentist]
           eq_refl eq_refl eq_refl).
Defined.

(** C1 as the specification words it fails on a feed whose only event is
    over: nothing survives the window, yet the held list of two events is
    replaced by the empty list and the listener is called with it. *)
Lemma C1_counterexample :
  let f := Sample.after [Sample.reply 200 "work"] in
  let f' := fst (cycle Sample.config Sample.utc Sample.parse (Sample.reply 200 "old") f) in
  Sample.parse "old" = Some [Sample.lecture] /\
  slice0 (maximumEntries Sample.config)
    (sort byStartDate (filterEvents Sample.config Sample.utc Sample.T [Sample.lecture])) = [] /\
  List.length (events f) = 2%nat /\
  events f' = [] /\
  received f' = received f ++ [[]].
Proof. vm_compute. repeat split. Qed.

(** C2 on a feed with an event titled as one of the exclusions: the
    parameter [excludedEvents] is never read, and the event is published. *)
Theorem C2_excluded_title_is_published :
  In "Birthday"%string (excludedEvents Sample.config) /\
  exists e,
    In e (events (Sample.after [Sample.reply 200 "family"])) /\
    Out.title e = Some "Birthday"%string /\
    excluded Sample.config e.
Proof.
  split; [left; reflexivity |].
  exists (translate Sample.birthday). split; [| split].
  - vm_compute. left. reflexivity.
  - reflexivity.
  - exists "Birthday"%string. split; [reflexivity | left; reflexivity].
Qed.

(** C3 on four replies with status 503. *)
Lemma C3_witness :
  let f1 := runFrom Sample.config Sample.utc Sample.parse initial [Sample.reply 503 ""] in
  let f2 := runFrom Sample.config Sample.utc Sample.parse initial
              [Sample.reply 503 ""; Sample.reply 503 ""] in
  let f3 := runFrom Sample.config Sample.utc Sample.parse initial
              [Sample.reply 503 ""; Sample.reply 503 ""; Sample.reply 503 ""] in
  let f4 := runFrom Sample.config Sample.utc Sample.parse initial
              [Sample.reply 503 ""; Sample.reply 503 ""; Sample.reply 503 "";
               Sample.reply 503 ""] in
  (reloadTimer f1 = Some 10000 /\ failedRetrievals f1 = 1) /\
  (reloadTimer f2 = Some 10000 /\ failedRetrievals f2 = 2) /\
  (reloadTimer f3 = Some 10000 /\ failedRetrievals f3 = 3) /\
  (reloadTimer f4 = Some (reloadInterval Sample.config) /\ failedRetrievals f4 = 0).
Proof.
  assert (H503 : failed (Sample.reply 503 "")).
  { exists 503. split; [reflexivity | discriminate]. }
  exact (C3_fourth_failure_waits_reload_interval Sample.config Sample.utc Sample.parse
           initial (Sample.reply 503 "") (Sample.reply 503 "")
           (Sample.reply 503 "") (Sample.reply 503 "")
           eq_refl H503 H503 H503 H503).
Defined.

(** C3 as the specification words it fails: after three consecutive
    replies with status 503 the fourth attempt is armed for 10 seconds, not
    for the reload interval of 300 seconds, and the counter is 3. *)
Lemma C3_counterexample :
  let f3 := Sample.after
              [Sample.reply 503 ""; Sample.reply 503 ""; Sample.reply 503 ""] in
  reloadTimer f3 = Some 10000 /\
  reloadTimer f3 <> Some (reloadInterval Sample.config) /\
  failedRetrievals f3 = 3 /\
  failedRetrievals f3 <> 0.
Proof. vm_compute. repeat split; discriminate. Qed.

(** C4 at a feed that lists an event five days from now before an event
    one day from now.  The comparator subtracts the two time objects, which
    gives [NaN]; the sort moves nothing, and the list is published in the
    order of the feed, the later event first. *)
Theorem C4_published_in_feed_order :
  let f := Sample.after [Sample.reply 200 "work"] in
  Sample.parse "work" = Some [Sample.congress; Sample.review; Sample.dentist] /\
  byStartDate Sample.review Sample.dentist = None /\
  map (fun e => (Out.title e, startInstant e)) (events f) =
    [(Some "Review"%string, Sample.T + 5 * Sample.day);
     (Some "Dentist"%string, Sample.T + Sample.day)] /\
  ~ StronglySorted (fun a b => startInstant a <= startInstant b) (events f).
Proof.
  split; [reflexivity |]. split; [reflexivity |]. split; [vm_compute; reflexivity |].
  intros Hs. apply StronglySorted_inv in Hs. destruct Hs as [_ Hall].
  apply Forall_inv in Hall. vm_compute in Hall. apply Hall. reflexivity.
Qed.

(** C6 on the sample fetcher, which keeps two entries. *)
Lemma C6_witness :
  Z.of_nat
    (List.length (events (run Sample.config Sample.utc Sample.parse [Sample.reply 200 "work"])))
  <= maximumEntries Sample.config.
Proof.
  apply (C6_at_most_maximumEntries Sample.config Sample.utc Sample.parse
           [Sample.reply 200 "work"]).
  vm_compute. discriminate.
Defined.

(** C7 at a reply with status 200 and a [null] body, after one failed
    attempt: the counter is put to 0, but the callback throws on
    [allEvents.length] and no timer is armed; a body the parser rejects
    ends the same way. *)
Theorem C7_status_200_leaves_no_timer :
  let f := Sample.after [Sample.reply 503 ""] in
  failedRetrievals f = 1 /\
  cycle Sample.config Sample.utc Sample.parse Sample.nullBody f =
    ({| reloadTimer := None; events := []; failedRetrievals := 0; received := [] |},
     Throw TypeError) /\
  cycle Sample.config Sample.utc Sample.parse (Sample.reply 200 "<html>") f =
    ({| reloadTimer := None; events := []; failedRetrievals := 0; received := [] |},
     Throw ParserError).
Proof. vm_compute. repeat split. Qed.

(** C8 at a [null] body and at a body the parser rejects, with two events
    held: the list is kept and the counter is 0, but the callback ends in
    an exception and the next fetch is not scheduled. *)
Theorem C8_parse_failure_is_thrown :
  let f := Sample.after [Sample.reply 200 "work"] in
  let null := cycle Sample.config Sample.utc Sample.parse Sample.nullBody f in
  let html := cycle Sample.config Sample.utc Sample.parse (Sample.reply 200 "<html>") f in
  reloadTimer f = Some (reloadInterval Sample.config) /\
  (snd null = Throw TypeError /\
   events (fst null) = events f /\
   failedRetrievals (fst null) = 0 /\
   reloadTimer (fst null) = None) /\
  (snd html = Throw ParserError /\
   events (fst html) = events f /\
   failedRetrievals (fst html) = 0 /\
   reloadTimer (fst html) = None).
Proof. vm_compute. repeat split. Qed.

(** C9 on an event of 24 hours that starts half a minute past midnight. *)
Lemma C9_witness :
  isFullDayEvent Sample.utc Sample.noNumber Sample.noNumber Sample.vigil = Normal true <->
  (30000 + Sample.day) - 30000 = 86400000 /\
  Z.abs 30000 <= 8640000000000000 /\
  0 <= Moment.timeOfDay Sample.utc 30000 < 60000.
Proof.
  exact (proj2 (C9_full_day_hour_and_minute Sample.utc Sample.noNumber Sample.noNumber
                  Sample.vigil)
           30000 (30000 + Sample.day) eq_refl eq_refl).
Defined.

(** C9 as the specification words it fails twice.  An event of 24 hours
    that starts half a minute past local midnight is classified full-day,
    though it has a time of day and does not start at midnight; and an
    event with a date-only start and no flag from the parser is classified
    full-day while the published record carries no flag. *)
Lemma C9_counterexample :
  (isFullDayEvent Sample.utc Sample.noNumber Sample.noNumber Sample.vigil = Normal true /\
   ICAL.start Sample.vigil = Date 30000 /\
   Moment.timeOfDay Sample.utc 30000 <> 0) /\
  (isFullDayEvent Sample.utc Sample.noNumber Sample.noNumber Sample.holiday = Normal true /\
   ICAL.fullDayEvent Sample.holiday = None /\
   Out.fullDayEvent (translate Sample.holiday) <> Some true).
Proof. vm_compute. repeat split; discriminate. Qed.

(** C10 on three failed attempts followed by a reply with status 200. *)
Lemma C10_witness :
  let f := run Sample.config Sample.utc Sample.parse
             [Sample.reply 503 ""; Sample.reply 503 ""; Sample.reply 503 ""] in
  let f' := fst (cycle Sample.config Sample.utc Sample.parse (Sample.reply 200 "work") f) in
  0 <= failedRetrievals f <= 3 /\
  0 <= failedRetrievals f' <= 3 /\
  failedRetrievals f' = 0.
Proof.
  destruct (C10_failedRetrievals_in_range Sample.config Sample.utc Sample.parse
              [Sample.reply 503 ""; Sample.reply 503 ""; Sample.reply 503 ""]
              (Sample.reply 200 "work")) as (Hf & Hf' & Hreset).
  split; [exact Hf |]. split; [exact Hf' |].
  apply Hreset. reflexivity.
Defined.

(** * Further properties of the fetcher *)

Section Outcomes.
Variable cfg : Config.
Variable zone : Moment.Zone.
Variable icalParse : string -> option (list ICAL.Event).

(** What a cycle does to the held list and to the listener: nothing, or one
    replacement announced by one call. *)
Lemma cycle_publishes (r : Reply) (f : Fetcher) :
  (events (fst (cycle cfg zone icalParse r f)) = events f /\
   received (fst (cycle cfg zone icalParse r f)) = received f) \/
  (exists l,
     events (fst (cycle cfg zone icalParse r f)) =
       published cfg zone (clock r) l /\
     received (fst (cycle cfg zone icalParse r f)) =
       received f ++ [published cfg zone (clock r) l]).
Proof.
  rewrite cycle_callback.
  destruct (reply_cases icalParse r)
    as [Hr | [Hr | [[Hr Hb] | (text & l & Hr & Hb & Hp)]]].
  - rewrite retrieveCallback_no_response by exact Hr. left. split; reflexivity.
  - rewrite retrieveCallback_failed by exact Hr. left. split; reflexivity.
  - destruct (retrieveCallback_unparsed cfg zone icalParse r
                (set_reloadTimer None f) Hr Hb) as [e ->].
    left. split; reflexivity.
  - rewrite (retrieveCallback_parsed cfg zone icalParse r text l _ Hr Hb Hp).
    destruct l; [left | right; eexists]; split; reflexivity.
Qed.

(** X1.  After a cycle a timeout is pending exactly when the callback
    returned, which it does exactly when the reply has a response whose
    status is not 200 or whose body the parser accepts; the delay is then
    10 seconds or the reload interval.  In every other case (no response,
    a [null] body, a rejected body) the callback throws and the fetcher is
    left without a timer. *)
Theorem cycle_rearms_iff_callback_returns (r : Reply) (f : Fetcher) :
  let f' := fst (cycle cfg zone icalParse r f) in
  let c := snd (cycle cfg zone icalParse r f) in
  (c = Normal tt <-> failed r \/ parses icalParse r) /\
  (c = Normal tt <-> reloadTimer f' <> None) /\
  (c <> Normal tt <-> exists e, c = Throw e /\ reloadTimer f' = None) /\
  (forall d, reloadTimer f' = Some d -> d = 10000 \/ d = reloadInterval cfg).
Proof.
  intros f' c. subst f' c. rewrite cycle_callback.
  destruct (reply_cases icalParse r)
    as [Hr | [Hr | [[Hr Hb] | (text & l & Hr & Hb & Hp)]]].
  - rewrite retrieveCallback_no_response by exact Hr. simpl.
    repeat split; try discriminate; try congruence.
    + intros [(s & Hs & _) | (text & l & Hs & _)]; congruence.
    + intros _. exists TypeError. split; reflexivity.
  - rewrite retrieveCallback_failed by exact Hr. simpl.
    repeat split; try discriminate; try congruence; auto.
    + intros (e & He & _). discriminate.
    + intros d [= <-]. destruct (failedRetrievals f <? 3); auto.
  - destruct (retrieveCallback_unparsed cfg zone icalParse r
                (set_reloadTimer None f) Hr Hb) as [e ->].
    simpl. repeat split; try discriminate; try congruence.
    + intros [(s & Hs & Hne) | (text & l & _ & Hb' & Hp)]; [congruence |].
      destruct Hb as [Hb | (text' & Hb & Hp')]; congruence.
    + intros _. exists e. split; reflexivity.
  - rewrite (retrieveCallback_parsed cfg zone icalParse r text l _ Hr Hb Hp).
    assert (Hok : parses icalParse r) by (exists text, l; auto).
    assert (Hshape : exists g,
               (match l with
                | [] =>
                    {| reloadTimer := Some (reloadInterval cfg);
                       events := events (set_reloadTimer None f);
                       failedRetrievals := 0;
                       received := received (set_reloadTimer None f) |}
                | _ :: _ =>
                    {| reloadTimer := Some (reloadInterval cfg);
                       events := published cfg zone (clock r) l;
                       failedRetrievals := 0;
                       received :=
                         received (set_reloadTimer None f) ++
                         [published cfg zone (clock r) l] |}
                end) = g /\ reloadTimer g = Some (reloadInterval cfg)).
    { destruct l; eexists; split; reflexivity. }
    destruct Hshape as (g & -> & Hg). simpl. rewrite Hg.
    split; [| split; [| split]].
    + split; auto.
    + split; [discriminate | reflexivity].
    + split; [intros H; contradiction H; reflexivity |].
      intros (e & He & _). discriminate.
    + intros d [= <-]. auto.
Qed.

(** X2.  A cycle whose reply does not carry status 200 leaves the held
    list as it is and does not call the listener. *)
Theorem cycle_without_200_keeps_events (r : Reply) (f : Fetcher) :
  response r <> Some 200 ->
  events (fst (cycle cfg zone icalParse r f)) = events f /\
  received (fst (cycle cfg zone icalParse r f)) = received f.
Proof.
  intros Hne. rewrite cycle_callback.
  destruct (reply_cases icalParse r)
    as [Hr | [Hr | [[Hr Hb] | (text & l & Hr & Hb & Hp)]]];
    try contradiction.
  - rewrite retrieveCallback_no_response by exact Hr. split; reflexivity.
  - rewrite retrieveCallback_failed by exact Hr. split; reflexivity.
Qed.

Lemma runFrom_snoc (f : Fetcher) (replies : list Reply) (r : Reply) :
  runFrom cfg zone icalParse f (replies ++ [r]) =
  fst (cycle cfg zone icalParse r (runFrom cfg zone icalParse f replies)).
Proof. unfold runFrom. rewrite fold_left_app. reflexivity. Qed.

Lemma failed_streak_counter (replies : list Reply) (f : Fetcher) :
  0 <= failedRetrievals f <= 3 ->
  Forall failed replies ->
  failedRetrievals (runFrom cfg zone icalParse f replies) =
  (failedRetrievals f + Z.of_nat (List.length replies)) mod 4.
Proof.
  revert f. induction replies as [| r replies IH]; intros f Hf Hall.
  - simpl. rewrite Z.add_0_r, Z.mod_small by lia. reflexivity.
  - inversion Hall as [| ? ? Hr Hrest]; subst.
    change (runFrom cfg zone icalParse f (r :: replies))
      with (runFrom cfg zone icalParse
              (fst (cycle cfg zone icalParse r f)) replies).
    rewrite IH; [| apply cycle_failedRetrievals; exact Hf | exact Hrest].
    rewrite cycle_callback, retrieveCallback_failed by exact Hr.
    cbn [fst failedRetrievals set_reloadTimer].
    replace (failedRetrievals f + Z.of_nat (List.length (r :: replies)))
      with ((failedRetrievals f + 1) + Z.of_nat (List.length replies))
      by (simpl List.length; lia).
    rewrite <- (Zplus_mod_idemp_l (failedRetrievals f + 1)).
    f_equal. f_equal.
    destruct (Z.ltb_spec (failedRetrievals f) 3).
    + rewrite Z.mod_small by lia. reflexivity.
    + replace (failedRetrievals f) with 3 by lia. reflexivity.
Qed.

(** X3.  Over any streak of replies with a status other than 200 the
    counter counts modulo 4: from a counter [c] within 0..3, after [k] such
    replies it is [(c + k) mod 4], and the last of them arms the timer for
    the reload interval when that is 0 and for 10 seconds otherwise. *)
Theorem failed_streak_counts_modulo_4 (replies : list Reply) (f : Fetcher) :
  0 <= failedRetrievals f <= 3 ->
  Forall failed replies ->
  let k := Z.of_nat (List.length replies) in
  let f' := runFrom cfg zone icalParse f replies in
  failedRetrievals f' = (failedRetrievals f + k) mod 4 /\
  (replies <> [] ->
   reloadTimer f' =
   Some (if (failedRetrievals f + k) mod 4 =? 0 then reloadInterval cfg else 10000)).
Proof.
  intros Hf Hall k f'. subst k f'.
  split; [apply failed_streak_counter; assumption |].
  intros Hne.
  destruct (exists_last Hne) as (rs & r & ->).
  apply Forall_app in Hall. destruct Hall as [Hrs Hr].
  inversion Hr as [| ? ? Hr' _]; subst.
  rewrite runFrom_snoc, cycle_callback, retrieveCallback_failed by exact Hr'.
  cbn [fst reloadTimer failedRetrievals set_reloadTimer].
  rewrite (failed_streak_counter rs f Hf Hrs).
  rewrite length_app, Nat2Z.inj_add. simpl List.length.
  set (n := failedRetrievals f + Z.of_nat (List.length rs)).
  replace (failedRetrievals f + (Z.of_nat (List.length rs) + Z.of_nat 1))
    with (n + 1) by (subst n; lia).
  pose proof (Z.mod_pos_bound n 4 eq_refl) as Hn.
  rewrite <- (Zplus_mod_idemp_l n 1).
  f_equal.
  destruct (Z.ltb_spec (n mod 4) 3).
  - rewrite (Z.mod_small (n mod 4 + 1)) by lia.
    destruct (Z.eqb_spec (n mod 4 + 1) 0); [lia | reflexivity].
  - replace (n mod 4) with 3 by lia. reflexivity.
Qed.

(** X4.  After any sequence of cycles the held list is the list of the
    last call to the listener, or empty when there has been none: no
    replacement goes unannounced and no announcement is stale. *)
Theorem events_is_last_received (replies : list Reply) :
  let f := run cfg zone icalParse replies in
  events f = last (received f) [].
Proof.
  intros f. subst f. unfold run.
  assert (H : forall replies f,
             events f = last (received f) [] ->
             events (runFrom cfg zone icalParse f replies) =
             last (received (runFrom cfg zone icalParse f replies)) []).
  { clear replies. induction replies as [| r replies IH]; intros f Hf; [exact Hf |].
    simpl. apply IH.
    destruct (cycle_publishes r f) as [[-> ->] | (l & -> & ->)]; [exact Hf |].
    rewrite last_last. reflexivity. }
  apply H. reflexivity.
Qed.

(** X5.  With [maximumEntries] at least 0, every list the listener is ever
    called with has at most [maximumEntries] events. *)
Theorem received_lists_bounded (replies : list Reply) :
  0 <= maximumEntries cfg ->
  Forall
    (fun l => Z.of_nat (List.length l) <= maximumEntries cfg)
    (received (run cfg zone icalParse replies)).
Proof.
  intros Hmax. unfold run.
  assert (H : forall replies f,
             Forall (fun l => Z.of_nat (List.length l) <= maximumEntries cfg)
               (received f) ->
             Forall (fun l => Z.of_nat (List.length l) <= maximumEntries cfg)
               (received (runFrom cfg zone icalParse f replies))).
  { clear replies. induction replies as [| r replies IH]; intros f Hf; [exact Hf |].
    simpl. apply IH.
    destruct (cycle_publishes r f) as [[_ ->] | (l & _ & ->)]; [exact Hf |].
    apply Forall_app. split; [exact Hf |].
    constructor; [| constructor].
    apply published_length. exact Hmax. }
  apply H. constructor.
Qed.

End Outcomes.

Section Publishing.
Variable cfg : Config.
Variable zone : Moment.Zone.

Lemma window_after_sort_In (now : Z) (l : list ICAL.Event) (v : ICAL.Event) :
  In v (sort byStartDate (filterEvents cfg zone now l)) <->
  In v l /\ inWindow cfg zone now v.
Proof.
  rewrite <- inWindowb_spec, <- filter_In, <- filterEvents_filter.
  split; apply Permutation_in.
  - apply Permutation_sym.
    apply (sort_perm byStartDate).
  - apply (sort_perm byStartDate).
Qed.

(** X6.  Every published event is the record of a parsed component that
    lies in the time window: nothing is published that the feed did not
    contain or that the window excludes. *)
Theorem published_from_window (now : Z) (l : list ICAL.Event) (e : Out.CalendarEvent) :
  In e (published cfg zone now l) ->
  exists v, In v l /\ inWindow cfg zone now v /\ e = translate v.
Proof.
  unfold published. intros He.
  apply in_map_iff in He. destruct He as (v & <- & Hv).
  destruct (slice0_firstn (maximumEntries cfg)
              (sort byStartDate (filterEvents cfg zone now l))) as [k Hk].
  rewrite Hk in Hv. apply firstn_incl in Hv.
  apply window_after_sort_In in Hv. exists v. tauto.
Qed.

(** X7.  The published list is in the order of the feed: it is made of
    the first events of the feed that lie in the window, the sort having
    moved none of them, so what the cut leaves out are the events the feed
    lists last. *)
Theorem published_is_feed_prefix (now : Z) (l : list ICAL.Event) :
  exists rest,
    map translate (filterEvents cfg zone now l) = published cfg zone now l ++ rest.
Proof.
  rewrite published_feed_order.
  destruct (slice0_firstn (maximumEntries cfg) (filterEvents cfg zone now l))
    as [k ->].
  exists (map translate (skipn k (filterEvents cfg zone now l))).
  rewrite <- map_app, firstn_skipn. reflexivity.
Qed.

Lemma sort_length (l : list ICAL.Event) :
  List.length (sort byStartDate l) = List.length l.
Proof. symmetry. apply Permutation_length. apply (sort_perm byStartDate). Qed.

(** X8.  When the window holds no more than [maximumEntries] events, all
    of them are published: the published list is a rearrangement of the
    records of the events in the window. *)
Theorem published_all_when_room (now : Z) (l : list ICAL.Event) :
  Z.of_nat (List.length (filterEvents cfg zone now l)) <= maximumEntries cfg ->
  Permutation (published cfg zone now l)
    (map translate (filterEvents cfg zone now l)).
Proof.
  intros Hroom. unfold published, slice0.
  rewrite sort_length.
  destruct (Z.ltb_spec (maximumEntries cfg) 0) as [Hneg | Hpos]; [lia |].
  rewrite Z.min_r by exact Hroom.
  rewrite Nat2Z.id, <- sort_length, firstn_all.
  apply Permutation_map. apply Permutation_sym. apply (sort_perm byStartDate).
Qed.

(** X9.  The number of published events, with [n] events in the window:
    the smaller of [n] and [maximumEntries] when [maximumEntries] is not
    negative; with a negative [maximumEntries] it is [n + maximumEntries],
    or 0 if that is negative, so that many of the latest events are dropped
    instead. *)
Theorem published_length_exact (now : Z) (l : list ICAL.Event) :
  let n := Z.of_nat (List.length (filterEvents cfg zone now l)) in
  Z.of_nat (List.length (published cfg zone now l)) =
  if maximumEntries cfg <? 0
  then Z.max (n + maximumEntries cfg) 0
  else Z.min (maximumEntries cfg) n.
Proof.
  intros n. subst n. unfold published, slice0.
  rewrite length_map, length_firstn, sort_length.
  destruct (Z.ltb_spec (maximumEntries cfg) 0); lia.
Qed.

(** X11.  As the clock advances within one local day the window only
    loses events: what is kept at the later instant was kept at the
    earlier one. *)
Theorem filterEvents_shrinks_within_day (now later : Z) (l : list ICAL.Event) :
  now <= later ->
  Moment.startOfDay zone now = Moment.startOfDay zone later ->
  incl (filterEvents cfg zone later l) (filterEvents cfg zone now l).
Proof.
  intros Hle Hday e.
  rewrite !filterEvents_filter, !filter_In, !inWindowb_spec.
  unfold inWindow, future. rewrite Hday. intuition lia.
Qed.

End Publishing.

Section Windows.
Variable zone : Moment.Zone.

(** X13.  A longer look-ahead only adds events: in a regular zone, with
    the other parameters whatever they are, what is kept under
    [maximumNumberOfDays = n] is kept under any larger value. *)
Theorem filterEvents_grows_with_days (cfg cfg' : Config) (now : Z) (l : list ICAL.Event) :
  Moment.regular zone ->
  maximumNumberOfDays cfg <= maximumNumberOfDays cfg' ->
  incl (filterEvents cfg zone now l) (filterEvents cfg' zone now l).
Proof.
  intros [Hmono _] Hle e.
  rewrite !filterEvents_filter, !filter_In, !inWindowb_spec.
  unfold inWindow, future, Moment.subtractSeconds, Moment.addDays.
  intros (Hin & Hend & Hstart). repeat split; try assumption.
  destruct (Z.eq_dec (maximumNumberOfDays cfg) (maximumNumberOfDays cfg')) as [<- | Hne];
    [exact Hstart |].
  set (m := Moment.wallClock zone (Moment.startOfDay zone now)) in *.
  assert (Hres : Moment.resolve zone (m + maximumNumberOfDays cfg * Moment.msPerDay)
                 <= Moment.resolve zone (m + maximumNumberOfDays cfg' * Moment.msPerDay)).
  { apply Hmono. unfold Moment.msPerDay. nia. }
  lia.
Qed.

(** X14.  With [maximumNumberOfDays] at 0 or below, no event that starts
    today or later is kept: in a regular zone everything kept started
    before the local midnight that began today. *)
Theorem filterEvents_zero_days (cfg : Config) (now : Z) (l : list ICAL.Event)
  (e : ICAL.Event) :
  Moment.regular zone ->
  maximumNumberOfDays cfg <= 0 ->
  In e (filterEvents cfg zone now l) ->
  ICAL.toJSDate (ICAL.startDate e) < Moment.startOfDay zone now.
Proof.
  intros [Hmono Hback] Hn. rewrite filterEvents_filter, filter_In, inWindowb_spec.
  unfold inWindow, future, Moment.subtractSeconds, Moment.addDays, Moment.msPerSecond.
  intros (_ & _ & Hstart).
  set (m := Moment.wallClock zone (Moment.startOfDay zone now)) in *.
  assert (Hres : Moment.resolve zone (m + maximumNumberOfDays cfg * Moment.msPerDay)
                 <= Moment.startOfDay zone now).
  { destruct (Z.eq_dec (maximumNumberOfDays cfg) 0) as [-> | Hne].
    - rewrite Z.mul_0_l, Z.add_0_r. subst m.
      unfold Moment.startOfDay at 1. rewrite Hback. unfold Moment.startOfDay. lia.
    - transitivity (Moment.resolve zone m).
      + apply Hmono. unfold Moment.msPerDay. nia.
      + subst m. unfold Moment.startOfDay at 1. rewrite Hback.
        unfold Moment.startOfDay. lia. }
  lia.
Qed.

End Windows.

(** ** One timeout at a time *)

Section TimerTable.

Lemma filter_none {A : Type} (p : A -> bool) (l : list A) :
  (forall x, In x l -> p x = false) -> filter p l = [].
Proof.
  induction l as [| a l IH]; intros H; [reflexivity |].
  simpl. rewrite (H a) by (left; reflexivity).
  apply IH. intros x Hx. apply H. right. exact Hx.
Qed.

(** Clearing the timeout whose handle every entry of the table bears
    empties the table. *)
Lemma clearTimeout_own (r : option nat) (table : list (nat * Z)) :
  (forall h d, In (h, d) table -> r = Some h) ->
  Timers.clearTimeout r table = [].
Proof.
  intros Hown. unfold Timers.clearTimeout.
  destruct r as [h |].
  - apply filter_none. intros [h' d] Hin. simpl.
    specialize (Hown h' d Hin). injection Hown as ->.
    rewrite Nat.eqb_refl. reflexivity.
  - destruct table as [| [h d] rest]; [reflexivity |].
    specialize (Hown h d (or_introl eq_refl)). discriminate.
Qed.

Lemma step_keeps_one (L : Timers.Loop) (a : Timers.action) :
  (List.length (Timers.pending L) <= 1)%nat ->
  (forall h d, In (h, d) (Timers.pending L) -> Timers.reloadTimer L = Some h) ->
  (List.length (Timers.pending (Timers.step L a)) <= 1)%nat /\
  (forall h d,
     In (h, d) (Timers.pending (Timers.step L a)) ->
     Timers.reloadTimer (Timers.step L a) = Some h).
Proof.
  intros Hone Hown. destruct a as [| h | interval |]; simpl.
  - unfold Timers.fetchCalendar. simpl. rewrite clearTimeout_own by exact Hown.
    simpl. split; [lia | contradiction].
  - destruct (Timers.isPending h L); [| split; assumption].
    unfold Timers.fetchCalendar. simpl.
    rewrite clearTimeout_own.
    + simpl. split; [lia | contradiction].
    + intros h' d Hin. apply filter_In in Hin.
      apply (Hown h' d). tauto.
  - unfold Timers.scheduleTimer. simpl. rewrite clearTimeout_own by exact Hown.
    simpl. split; [lia |].
    intros h d [[= <- <-] | []]. reflexivity.
  - split; assumption.
Qed.

(** X15.  However calls of [startFetch], timeouts coming due and
    completions of [retrieveCallback] follow one another, at most one
    timeout is pending, and it is the one [reloadTimer] holds; right after
    a completion that reaches [scheduleTimer] exactly the new timeout is
    pending, and right after a timeout has come due or [startFetch] was
    called none is. *)
Theorem at_most_one_timeout_pending (actions : list Timers.action) :
  let L := Timers.after actions in
  (List.length (Timers.pending L) <= 1)%nat /\
  (forall h d, In (h, d) (Timers.pending L) -> Timers.reloadTimer L = Some h) /\
  (forall interval,
     Timers.pending (Timers.step L (Timers.Completed interval)) =
     [(Timers.nextHandle L, interval)]) /\
  Timers.pending (Timers.step L Timers.StartFetch) = [] /\
  (forall h, Timers.isPending h L = true ->
             Timers.pending (Timers.step L (Timers.Due h)) = []).
Proof.
  intros L.
  assert (Hinv : (List.length (Timers.pending L) <= 1)%nat /\
                 (forall h d, In (h, d) (Timers.pending L) ->
                              Timers.reloadTimer L = Some h)).
  { subst L. unfold Timers.after.
    assert (H : forall actions L0,
               (List.length (Timers.pending L0) <= 1)%nat ->
               (forall h d, In (h, d) (Timers.pending L0) ->
                            Timers.reloadTimer L0 = Some h) ->
               (List.length (Timers.pending (fold_left Timers.step actions L0)) <= 1)%nat /\
               (forall h d,
                  In (h, d) (Timers.pending (fold_left Timers.step actions L0)) ->
                  Timers.reloadTimer (fold_left Timers.step actions L0) = Some h)).
    { clear actions. induction actions as [| a actions IH]; intros L0 Hone Hown.
      - split; assumption.
      - simpl. destruct (step_keeps_one L0 a Hone Hown) as [Hone' Hown'].
        apply IH; assumption. }
    apply H; simpl; [lia | contradiction]. }
  destruct Hinv as [Hone Hown].
  split; [exact Hone |]. split; [exact Hown |]. split; [| split].
  - intros interval. simpl. unfold Timers.scheduleTimer. simpl.
    rewrite clearTimeout_own by exact Hown. reflexivity.
  - simpl. unfold Timers.fetchCalendar. simpl.
    apply clearTimeout_own. exact Hown.
  - intros h Hh. simpl. rewrite Hh.
    unfold Timers.fetchCalendar. simpl.
    apply clearTimeout_own.
    intros h' d Hin. apply filter_In in Hin.
    apply (Hown h' d). tauto.
Qed.

End TimerTable.

(** ** Full-day events that cannot be classified *)

Section FullDayErrors.
Variable zone : Moment.Zone.
Variable stringToNumber : string -> option Z.
Variable dateParse : string -> option Z.

(** X16.  [isFullDayEvent] throws exactly when the event has no [start];
    for every other event it returns a boolean, whatever the [end] is, and
    a start of eight characters makes it true even without an [end]. *)
Theorem isFullDayEvent_throws_iff_no_start (e : ICAL.Event) :
  (isFullDayEvent zone stringToNumber dateParse e = Throw TypeError <->
   ICAL.start e = Undefined) /\
  ((exists b, isFullDayEvent zone stringToNumber dateParse e = Normal b) <->
   ICAL.start e <> Undefined) /\
  (forall s, ICAL.start e = Text s -> String.length s = 8%nat ->
             isFullDayEvent zone stringToNumber dateParse e = Normal true).
Proof.
  unfold isFullDayEvent.
  destruct (ICAL.start e) as [| n | s | t] eqn:Hs; simpl.
  - repeat split; try discriminate; try congruence.
    intros [b Hb]. discriminate.
  - split; [| split]; try discriminate.
    + split; [| discriminate].
      destruct (difference_is stringToNumber _ _ _ && _); discriminate.
    + split; [discriminate |]. intros _.
      destruct (difference_is stringToNumber _ _ _ && _); eexists; reflexivity.
  - split; [| split].
    + split; [| discriminate].
      destruct (Nat.eqb (String.length s) 8); [discriminate |].
      destruct (difference_is stringToNumber _ _ _ && _); discriminate.
    + split; [discriminate |]. intros _.
      destruct (Nat.eqb (String.length s) 8); [eexists; reflexivity |].
      destruct (difference_is stringToNumber _ _ _ && _); eexists; reflexivity.
    + intros s' [= <-] Hlen. rewrite Hlen. reflexivity.
  - split; [| split]; try discriminate.
    + split; [| discriminate].
      destruct (difference_is stringToNumber _ _ _ && _); discriminate.
    + split; [discriminate |]. intros _.
      destruct (difference_is stringToNumber _ _ _ && _); eexists; reflexivity.
Qed.

End FullDayErrors.

(** * The further properties on the sample fetcher *)

(** X2 on a reply with status 503, with two events held. *)
Lemma cycle_without_200_keeps_events_witness :
  let f := Sample.after [Sample.reply 200 "work"] in
  events (fst (cycle Sample.config Sample.utc Sample.parse (Sample.reply 503 "") f)) = events f /\
  received (fst (cycle Sample.config Sample.utc Sample.parse (Sample.reply 503 "") f)) = received f.
Proof.
  apply (cycle_without_200_keeps_events Sample.config Sample.utc Sample.parse
           (Sample.reply 503 "") (Sample.after [Sample.reply 200 "work"])).
  discriminate.
Defined.

(** X3 on five replies with status 503: the counter ends at 1. *)
Lemma failed_streak_counts_modulo_4_witness :
  let replies := repeat (Sample.reply 503 "") 5 in
  let f' := runFrom Sample.config Sample.utc Sample.parse initial replies in
  failedRetrievals f' = (failedRetrievals initial + 5) mod 4 /\
  (replies <> [] ->
   reloadTimer f' =
   Some (if (failedRetrievals initial + 5) mod 4 =? 0
         then reloadInterval Sample.config else 10000)).
Proof.
  apply (failed_streak_counts_modulo_4 Sample.config Sample.utc Sample.parse
           (repeat (Sample.reply 503 "") 5) initial).
  - simpl. lia.
  - repeat constructor; exists 503; (split; [reflexivity | discriminate]).
Defined.

(** X5 on the sample feed. *)
Lemma received_lists_bounded_witness :
  Forall
    (fun l => Z.of_nat (List.length l) <= maximumEntries Sample.config)
    (received (run Sample.config Sample.utc Sample.parse [Sample.reply 200 "work"])).
Proof.
  apply (received_lists_bounded Sample.config Sample.utc Sample.parse
           [Sample.reply 200 "work"]).
  vm_compute. discriminate.
Defined.

(** X6 on an event the sample feed publishes. *)
Lemma published_from_window_witness :
  exists v,
    In v [Sample.congress; Sample.review; Sample.dentist] /\
    inWindow Sample.config Sample.utc Sample.T v /\
    translate Sample.dentist = translate v.
Proof.
  apply (published_from_window Sample.config Sample.utc Sample.T
           [Sample.congress; Sample.review; Sample.dentist]
           (translate Sample.dentist)).
  vm_compute. right. left. reflexivity.
Defined.

(** X8 on the sample feed, whose window holds two events for two
    entries. *)
Lemma published_all_when_room_witness :
  Permutation
    (published Sample.config Sample.utc Sample.T
       [Sample.congress; Sample.review; Sample.dentist])
    (map translate
       (filterEvents Sample.config Sample.utc Sample.T
          [Sample.congress; Sample.review; Sample.dentist])).
Proof.
  apply (published_all_when_room Sample.config Sample.utc Sample.T
           [Sample.congress; Sample.review; Sample.dentist]).
  vm_compute. discriminate.
Defined.

(** X11 one second later on the same day. *)
Lemma filterEvents_shrinks_within_day_witness :
  incl
    (filterEvents Sample.config Sample.utc (Sample.T + 1000)
       [Sample.congress; Sample.review; Sample.dentist; Sample.lecture])
    (filterEvents Sample.config Sample.utc Sample.T
       [Sample.congress; Sample.review; Sample.dentist; Sample.lecture]).
Proof.
  apply (filterEvents_shrinks_within_day Sample.config Sample.utc Sample.T (Sample.T + 1000)
           [Sample.congress; Sample.review; Sample.dentist; Sample.lecture]).
  - vm_compute. discriminate.
  - vm_compute. reflexivity.
Defined.

(** X13 from thirty days to sixty. *)
Lemma filterEvents_grows_with_days_witness :
  incl
    (filterEvents Sample.config Sample.utc Sample.T
       [Sample.congress; Sample.review; Sample.dentist])
    (filterEvents More.wide Sample.utc Sample.T
       [Sample.congress; Sample.review; Sample.dentist]).
Proof.
  apply (filterEvents_grows_with_days Sample.utc Sample.config More.wide Sample.T
           [Sample.congress; Sample.review; Sample.dentist]).
  - unfold Moment.regular, Moment.wallClock, Moment.msPerDay. simpl.
    split; intros; lia.
  - vm_compute. discriminate.
Defined.

(** X14 on an event in progress, with no look-ahead. *)
Lemma filterEvents_zero_days_witness :
  ICAL.toJSDate (ICAL.startDate More.retreat) < Moment.startOfDay Sample.utc Sample.T.
Proof.
  apply (filterEvents_zero_days Sample.utc More.today Sample.T
           [Sample.dentist; More.retreat] More.retreat).
  - unfold Moment.regular, Moment.wallClock, Moment.msPerDay. simpl.
    split; intros; lia.
  - vm_compute. discriminate.
  - vm_compute. left. reflexivity.
Defined.
